(** * react-hotkeys: the [withHotKeys] higher-order component

    A shallow embedding of [src/lib/withHotKeys.js] and of the part of the
    React host that drives it (element creation, ref callbacks, the mount /
    update / unmount life cycle, [setState], [PureComponent]).

    - [JS]       values, objects and the heap;
    - [React]    elements, [createElement] and [shallowEqual];
    - [Machine]  the instance, the trace, and the state-and-exception monad
                 the methods run in;
    - [Source]   the four methods of [HotKeysWrapper] and the factory,
                 written after the source line by line;
    - [Host]     the life cycle React runs on one wrapper instance;
    - [Expected] and [Examples]: closed forms of runs, and concrete heaps;
    - then the properties of the wrapper. *)

From Stdlib Require Import ZArith.
From stdpp Require Import base decidable option list gmap strings pretty
  fin_maps.

Set Warnings "-register-all".
Open Scope string_scope.
Open Scope list_scope.

(** ** JavaScript values, objects and the heap *)

Module JS.

Definition loc := positive.

(** Function values.  [Bound m] is the bound method [this.m.bind(this)] of
    the wrapper instance; every other function is opaque to the wrapper. *)
Inductive fn :=
  | Opaque (n : nat)
  | Bound (m : string).

Inductive val :=
  | VUndef
  | VNull
  | VBool (b : bool)
  | VNum (z : Z)
  | VStr (s : string)
  | VFun (f : fn)
  | VObj (l : loc).

#[global] Instance fn_eq_dec : EqDecision fn.
Proof. solve_decision. Defined.

#[global] Instance val_eq_dec : EqDecision val.
Proof. solve_decision. Defined.

(** An object is its own enumerable string-keyed properties; the heap maps
    references to objects.  Two references are the same object exactly when
    they are the same location ([===] on objects). *)
Abbreviation obj := (gmap string val).
Abbreviation heap := (gmap loc obj).

Definition nullish (v : val) : bool :=
  match v with
  | VUndef | VNull => true
  | _ => false
  end.

(** The own enumerable properties of a string: its characters under
    their decimal indices. *)
Fixpoint string_props (i : nat) (s : string) : obj :=
  match s with
  | EmptyString => ∅
  | String c s' => <[pretty i := VStr (String c EmptyString)]>
                     (string_props (S i) s')
  end.

(** The own enumerable properties [{...v}] copies: those of an object or
    a string, none for [undefined], [null], booleans, numbers and
    functions. *)
Definition own_props (h : heap) (v : val) : obj :=
  match v with
  | VObj l => default ∅ (h !! l)
  | VStr s => string_props 0 s
  | _ => ∅
  end.

(** [v.k] for a non-nullish [v]: an own property, [undefined] when there
    is none (inherited properties are not modelled). *)
Definition field (h : heap) (v : val) (k : string) : val :=
  default VUndef (own_props h v !! k).

(** [{...dst, ...src}]: every own property of [src] is set on [dst], one
    after the other. *)
Definition object_spread (dst src : obj) : obj :=
  map_fold (λ k v acc, <[k := v]> acc) dst src.

(** A value names no object outside the heap. *)
Definition val_in_heap (h : heap) (v : val) : Prop :=
  match v with
  | VObj l => l ∈ dom h
  | _ => True
  end.

Definition heap_closed (h : heap) : Prop :=
  map_Forall (λ _ (o : obj), map_Forall (λ _ v, val_in_heap h v) o) h.

#[global] Instance val_in_heap_dec h v : Decision (val_in_heap h v).
Proof. destruct v; simpl; apply _. Defined.

#[global] Instance heap_closed_dec h : Decision (heap_closed h).
Proof. unfold heap_closed. apply _. Defined.

End JS.
Export JS.

(** ** React: elements and shallow comparison

    React is not part of the repository; what the wrapper uses of it is
    written here after its documented behaviour. *)

Module React.

(** What an element can be an instance of: the dispatch unit [./HotKeys],
    or a user component (the wrapped target). *)
Inductive component :=
  | HotKeys
  | User (n : nat).

#[global] Instance component_eq_dec : EqDecision component.
Proof. solve_decision. Defined.

(** A React element.  A child written between the tags is kept in
    [children]; React itself stores it under [props.children]. *)
Inductive element :=
  | Element (type : component) (key ref : val) (props : obj)
            (children : list element).

Definition el_type (e : element) : component :=
  match e with Element t _ _ _ _ => t end.
Definition el_key (e : element) : val :=
  match e with Element _ k _ _ _ => k end.
Definition el_ref (e : element) : val :=
  match e with Element _ _ r _ _ => r end.
Definition el_props (e : element) : obj :=
  match e with Element _ _ _ p _ => p end.
Definition el_children (e : element) : list element :=
  match e with Element _ _ _ _ c => c end.

Definition RESERVED_PROPS : list string :=
  ["key"; "ref"; "__self"; "__source"].

(** [config.key] and [config.ref] are taken when they are not [undefined],
    and are [null] otherwise. *)
Definition special (config : obj) (k : string) : val :=
  match config !! k with
  | Some VUndef | None => VNull
  | Some v => v
  end.

(** The [props] an element gets from its [config]: every own property but
    the reserved ones. *)
Definition props_of_config (config : obj) : obj :=
  filter (λ kv, kv.1 ∉ RESERVED_PROPS) config.

(** [React.createElement(type, config, ...children)], which is what a JSX
    tag with attributes [config] stands for.  Explicit children replace a
    [children] entry of [config].  The key is kept as given (React stores
    its string form), and the [defaultProps] of [type], which are the
    target's own business, are left out. *)
Definition createElement (type : component) (config : obj)
    (children : list element) : element :=
  let props := props_of_config config in
  let props :=
    match children with
    | [] => props
    | _ => delete "children" props
    end in
  Element type (special config "key") (special config "ref") props children.

(** [shallowEqual(a, b)]: the same number of own keys, and every own key
    of [a] is an own key of [b] with an identical value. *)
Definition shallowEqual (a b : obj) : bool :=
  bool_decide (size a = size b)
  && bool_decide (map_Forall (λ k v, b !! k = Some v) a).

End React.
Export React.

(** ** The machine the methods run on

    The objects whose identity matters live in the heap: the [{}] of the
    initial state, the target instance, its handler map, [keyMap],
    [componentProps].  The literals nothing compares by reference ([state],
    [props], the payload of [setState]) are plain maps. *)

Module Machine.

Inductive error := TypeError.

Inductive result (A : Type) :=
  | Ok (a : A)
  | Throw (e : error).
Arguments Ok {A} a.
Arguments Throw {A} e.

(** The fields of one wrapper instance ([this]).  [own_setRef] is the own
    property [this._setRef] the constructor installs. *)
Record instance := Instance {
  props : obj;
  state : obj;
  _ref : val;
  own_setRef : val;
}.

(** What the host calls on the instance. *)
Inductive hook :=
  | Hconstructor
  | Hrender
  | HcomponentDidMount.

(** The observable steps of a run, oldest first. *)
Inductive event :=
  | EHook (h : hook)                  (* the host enters a life-cycle method *)
  | ERefCall (m : string) (node : val) (* the host calls a ref callback *)
  | EAlloc (l : loc)                  (* an object literal is evaluated *)
  | EGet (v : val) (k : string)       (* [v.k] is read through a reference *)
  | ESetState (partial : obj).        (* [this.setState(partial)] *)

#[global] Instance hook_eq_dec : EqDecision hook.
Proof. solve_decision. Defined.

#[global] Instance event_eq_dec : EqDecision event.
Proof. solve_decision. Defined.

Inductive phase :=
  | Unmounted    (* not constructed yet *)
  | Mounted
  | TornDown.

#[global] Instance phase_eq_dec : EqDecision phase.
Proof. solve_decision. Defined.

Record world := World {
  w_heap : heap;
  w_this : instance;
  w_queue : list obj;         (* pending [setState] payloads *)
  w_trace : list event;
  w_phase : phase;
  w_tree : option element;    (* the last committed output of [render] *)
  w_node : option val;        (* what the host hands to the target's ref *)
}.

(** A bare instance before its constructor has run, on a given heap. *)
Definition bare : instance := Instance ∅ ∅ VUndef VUndef.

Definition boot (h : heap) : world :=
  World h bare [] [] Unmounted None None.

Definition with_heap (f : heap → heap) (w : world) : world :=
  World (f (w_heap w)) (w_this w) (w_queue w) (w_trace w) (w_phase w)
        (w_tree w) (w_node w).
Definition with_this (f : instance → instance) (w : world) : world :=
  World (w_heap w) (f (w_this w)) (w_queue w) (w_trace w) (w_phase w)
        (w_tree w) (w_node w).
Definition with_queue (f : list obj → list obj) (w : world) : world :=
  World (w_heap w) (w_this w) (f (w_queue w)) (w_trace w) (w_phase w)
        (w_tree w) (w_node w).
Definition with_trace (f : list event → list event) (w : world) : world :=
  World (w_heap w) (w_this w) (w_queue w) (f (w_trace w)) (w_phase w)
        (w_tree w) (w_node w).
Definition with_phase (p : phase) (w : world) : world :=
  World (w_heap w) (w_this w) (w_queue w) (w_trace w) p (w_tree w) (w_node w).
Definition with_tree (t : option element) (w : world) : world :=
  World (w_heap w) (w_this w) (w_queue w) (w_trace w) (w_phase w) t (w_node w).
Definition with_node (n : option val) (w : world) : world :=
  World (w_heap w) (w_this w) (w_queue w) (w_trace w) (w_phase w) (w_tree w) n.

(** State and exceptions. *)
Definition M (A : Type) : Type := world → result (A * world).

#[global] Instance M_ret : MRet M := λ A a w, Ok (a, w).
#[global] Instance M_bind : MBind M := λ A B f m w,
  match m w with
  | Ok (a, w') => f a w'
  | Throw e => Throw e
  end.

Definition gets {A} (f : world → A) : M A := λ w, Ok (f w, w).
Definition modify (f : world → world) : M unit := λ w, Ok (tt, f w).
Definition throw {A} (e : error) : M A := λ _, Throw e.
Definition emit (e : event) : M unit := modify (with_trace (λ t, t ++ [e])).

(** [this.x] and [this.x = v]. *)
Definition this {A} (f : instance → A) : M A := gets (λ w, f (w_this w)).
Definition set_props (p : obj) : M unit :=
  modify (with_this (λ i, Instance p (state i) (_ref i) (own_setRef i))).
Definition set_state (s : obj) : M unit :=
  modify (with_this (λ i, Instance (props i) s (_ref i) (own_setRef i))).
Definition set_ref (v : val) : M unit :=
  modify (with_this (λ i, Instance (props i) (state i) v (own_setRef i))).
Definition set_own_setRef (v : val) : M unit :=
  modify (with_this (λ i, Instance (props i) (state i) (_ref i) v)).

(** An object literal: a new object at a location the heap does not use. *)
Definition alloc (o : obj) : M val := λ w,
  let l := fresh (dom (w_heap w)) in
  Ok (VObj l, with_trace (λ t, t ++ [EAlloc l]) (with_heap (insert l o) w)).

(** [v.k]: a [TypeError] on [undefined] and [null]. *)
Definition get (v : val) (k : string) : M val :=
  if nullish v then throw TypeError
  else emit (EGet v k) ;; gets (λ w, field (w_heap w) v k).

(** The properties [...v] contributes to an object literal. *)
Definition spread (v : val) : M obj := gets (λ w, own_props (w_heap w) v).

(** [this.setState(partial)]: the payload is queued for the host. *)
Definition setState (partial : obj) : M unit :=
  emit (ESetState partial) ;; modify (with_queue (λ q, q ++ [partial])).

End Machine.
Export Machine.

(** ** The source: [src/lib/withHotKeys.js] *)

Module Source.

(** A component class as the host sees it: whether it extends
    [PureComponent], its constructor, the life-cycle methods it defines,
    and its other methods by name. *)
Record component_class := Class {
  extends_PureComponent : bool;
  cls_constructor : obj → M unit;
  cls_componentDidMount : option (M unit);
  cls_method : string → option (val → M unit);
  cls_render : M element;
}.

Section HotKeysWrapper.

(** Closed over by every method of the class. *)
Variables (keyMap componentProps : val) (Component : component).

(** [constructor(props)] *)
Definition constructor (props0 : obj) : M unit :=
  set_props props0 ;;
  set_own_setRef (VFun (Bound "_setRef")) ;;
  handlers ← alloc ∅ ;
  set_state {[ "handlers" := handlers ]}.

(** [componentDidMount()] *)
Definition componentDidMount : M unit :=
  r ← this _ref ;
  hotKeyHandlers ← get r "hotKeyHandlers" ;
  setState {[ "handlers" := hotKeyHandlers ]}.

(** [_setRef(node)] *)
Definition _setRef (node : val) : M unit :=
  set_ref node.

(** The object literal [props] of [render]. *)
Definition dispatch_props (handlers : val) (extra : obj) : obj :=
  object_spread
    (<["component" := VStr "document-fragment"]>
       (<["handlers" := handlers]> (<["keyMap" := keyMap]> ∅)))
    extra.

(** The attributes of [<Component ref={this._setRef} {...this.props} />]. *)
Definition target_config (setRef : val) (own : obj) : obj :=
  object_spread {[ "ref" := setRef ]} own.

(** [render()] *)
Definition render : M element :=
  st ← this state ;
  let handlers := default VUndef (st !! "handlers") in
  extra ← spread componentProps ;
  let props := dispatch_props handlers extra in
  setRef ← this own_setRef ;
  own ← this Machine.props ;
  mret (createElement HotKeys props
          [createElement Component (target_config setRef own) []]).

Definition HotKeysWrapper : component_class := {|
  extends_PureComponent := true;
  cls_constructor := constructor;
  cls_componentDidMount := Some componentDidMount;
  cls_method := λ m, if decide (m = "_setRef") then Some _setRef else None;
  cls_render := render;
|}.

End HotKeysWrapper.

(** [withHotKeys(keyMap, componentProps)] returns the function that takes
    [Component] to the class. *)
Definition withHotKeys (keyMap componentProps : val)
    : M (component → M component_class) :=
  mret (λ Component, mret (HotKeysWrapper keyMap componentProps Component)).

End Source.
Export Source.

(** ** The host: the life cycle React runs on one instance of a class

    The host is given what it hands to the ref callback of the target:
    [Some (VObj l)] for the instance of a class component, [Some VNull] or
    [None] for a function component, which has no instance (React 15 calls
    the ref with [null], React 16 does not call it). *)

Module Host.

(** What reaches a mounted instance from outside: its parent renders it
    again with a new [config], or the tree is torn down. *)
Inductive stimulus :=
  | ParentRender (config : obj)
  | Teardown.

Section Host.

Variable cls : component_class.

(** The refs of the elements below the root of a rendered tree. *)
Definition target_refs (tree : element) : list val :=
  el_ref <$> el_children tree.

(** Calling a ref: a bound method of the instance runs that method; no
    other ref is code of the class. *)
Definition call_ref (node r : val) : M unit :=
  match r with
  | VFun (Bound m) =>
      match cls_method cls m with
      | Some f => emit (ERefCall m node) ;; f node
      | None => mret tt
      end
  | _ => mret tt
  end.

Fixpoint call_refs (node : val) (rs : list val) : M unit :=
  match rs with
  | [] => mret tt
  | r :: rs' => call_ref node r ;; call_refs node rs'
  end.

(** [PureComponent] skips a render when neither props nor state changed
    shallowly; another component always renders. *)
Definition should_update (p p' s s' : obj) : bool :=
  negb (extends_PureComponent cls && shallowEqual p p' && shallowEqual s s').

(** One further render pass and its commit.  A ref that changed is
    detached (called with [null]) and the new one attached. *)
Definition rerender : M unit :=
  emit (EHook Hrender) ;;
  tree ← cls_render cls ;
  old ← gets w_tree ;
  node ← gets w_node ;
  let old_refs := from_option target_refs [] old in
  (if decide (old_refs = target_refs tree) then mret tt
   else call_refs VNull old_refs ;;
        match node with
        | Some v => call_refs v (target_refs tree)
        | None => mret tt
        end) ;;
  modify (with_tree (Some tree)).

(** The queued [setState] payloads are merged into the state, in order,
    and the instance renders again if it should. *)
Definition flush : M unit :=
  q ← gets w_queue ;
  match q with
  | [] => mret tt
  | _ =>
      p ← this props ;
      s ← this state ;
      let s' := foldl object_spread s q in
      modify (with_queue (λ _, [])) ;;
      set_state s' ;;
      if should_update p p s s' then rerender else mret tt
  end.

(** Mounting: construct, render, commit (the target's ref is called with
    [node] when the host has one to give), [componentDidMount], and the
    updates that queued. *)
Definition mount (config : obj) (node : option val) : M unit :=
  emit (EHook Hconstructor) ;;
  cls_constructor cls (props_of_config config) ;;
  emit (EHook Hrender) ;;
  tree ← cls_render cls ;
  modify (with_tree (Some tree)) ;;
  modify (with_node node) ;;
  match node with
  | Some v => call_refs v (target_refs tree)
  | None => mret tt
  end ;;
  modify (with_phase Mounted) ;;
  match cls_componentDidMount cls with
  | Some didMount => emit (EHook HcomponentDidMount) ;; didMount
  | None => mret tt
  end ;;
  flush.

(** A render by the parent. *)
Definition update (config : obj) : M unit :=
  p ← this props ;
  s ← this state ;
  let p' := props_of_config config in
  set_props p' ;;
  (if should_update p p' s s then rerender else mret tt) ;;
  flush.

(** Teardown: the refs are called with [null]; the class defines no
    [componentWillUnmount]. *)
Definition unmount : M unit :=
  old ← gets w_tree ;
  call_refs VNull (from_option target_refs [] old) ;;
  modify (with_phase TornDown).

Definition react (s : stimulus) : M unit :=
  ph ← gets w_phase ;
  match ph with
  | Mounted =>
      match s with
      | ParentRender config => update config
      | Teardown => unmount
      end
  | _ => mret tt
  end.

Fixpoint run (ss : list stimulus) : M unit :=
  match ss with
  | [] => mret tt
  | s :: ss' => react s ;; run ss'
  end.

(** One instance, from mount through what follows. *)
Definition lifetime (config : obj) (node : option val)
    (ss : list stimulus) : M unit :=
  mount config node ;; run ss.

End Host.

End Host.
Export Host.

(** ** What a run is expected to look like

    Closed forms the theorems below compare the runs with. *)

Module Expected.

(** The bound method the constructor installs. *)
Definition the_setRef : val := VFun (Bound "_setRef").

Section Expected.

Variables (keyMap componentProps : val) (Component : component).

(** The tree [render] returns on heap [h] with state [st] and props
    [own]. *)
Definition view (h : heap) (st own : obj) : element :=
  createElement HotKeys
    (dispatch_props keyMap (default VUndef (st !! "handlers"))
       (own_props h componentProps))
    [createElement Component (target_config the_setRef own) []].

(** The world of an instance at rest: mounted on [node] (or torn down),
    last given [config], nothing queued. *)
Definition settled (h : heap) (st : obj) (node : val) (ph : phase)
    (config : obj) (tr : list event) : world :=
  let own := props_of_config config in
  World h
    (Instance own st (match ph with Mounted => node | _ => VNull end)
       the_setRef)
    [] tr ph (Some (view h st own)) (Some node).

End Expected.

(** The state the constructor leaves, and the state after activation. *)
Definition initial_state (h : heap) : obj :=
  {[ "handlers" := VObj (fresh (dom h)) ]}.
Definition captured (h : heap) (node : val) : val :=
  field h node "hotKeyHandlers".
Definition activated_state (h : heap) (node : val) : obj :=
  {[ "handlers" := captured h node ]}.

(** The trace of a mount on [node]; the last render is the one the state
    change causes. *)
Definition mount_trace (h : heap) (node : val) : list event :=
  [ EHook Hconstructor; EAlloc (fresh (dom h)); EHook Hrender;
    ERefCall "_setRef" node; EHook HcomponentDidMount;
    EGet node "hotKeyHandlers"; ESetState (activated_state h node) ]
  ++ (if decide (captured h node = VObj (fresh (dom h))) then []
      else [EHook Hrender]).

(** What a stimulus adds to the trace of an instance mounted with
    [config], and where it leaves it. *)
Definition react_trace (config : obj) (s : stimulus) : list event :=
  match s with
  | ParentRender config' =>
      if decide (props_of_config config = props_of_config config')
      then [] else [EHook Hrender]
  | Teardown => [ERefCall "_setRef" VNull]
  end.

Fixpoint run_trace (config : obj) (ss : list stimulus) : list event :=
  match ss with
  | [] => []
  | ParentRender config' :: ss' =>
      react_trace config (ParentRender config') ++ run_trace config' ss'
  | Teardown :: _ => react_trace config Teardown
  end.

Fixpoint outcome (config : obj) (ss : list stimulus) : phase * obj :=
  match ss with
  | [] => (Mounted, config)
  | ParentRender config' :: ss' => outcome config' ss'
  | Teardown :: _ => (TornDown, config)
  end.

(** Counting in a trace. *)
Definition count (f : event → bool) (tr : list event) : nat :=
  length (List.filter f tr).

Definition is_hook (h : hook) (e : event) : bool :=
  match e with EHook h' => bool_decide (h' = h) | _ => false end.
Definition is_setState (e : event) : bool :=
  match e with ESetState _ => true | _ => false end.
Definition is_get (e : event) : bool :=
  match e with EGet _ _ => true | _ => false end.

(** The entry the object literal of [render] gives key [k] before
    [componentProps] is spread over it. *)
Definition internal (keyMap handlers : val) (k : string) : option val :=
  if decide (k = "keyMap") then Some keyMap
  else if decide (k = "handlers") then Some handlers
  else if decide (k = "component") then Some (VStr "document-fragment")
  else None.

(** The number of renders by the parent in a list of stimuli. *)
Definition is_parent_render (s : stimulus) : bool :=
  match s with ParentRender _ => true | Teardown => false end.
Definition parent_renders (ss : list stimulus) : nat :=
  length (List.filter is_parent_render ss).

End Expected.
Export Expected.

(** ** Concrete heaps

    A target instance at location 1 whose [hotKeyHandlers] is the object at
    location 2, the key map [{logConsole: "down"}] at location 3 and,
    where there are options, [componentProps] at location 4. *)

Module Examples.

Definition target : val := VObj 1%positive.
Definition ACTION_KEY_MAP : val := VObj 3%positive.
Definition options : val := VObj 4%positive.
Definition BasicBox : component := User 0.

Definition key_map : obj := {[ "logConsole" := VStr "down" ]}.

(** [hotKeyHandlers = {logConsole: f}] *)
Definition h_basic : heap :=
  {[ 1%positive := {[ "hotKeyHandlers" := VObj 2%positive ]};
     2%positive := {[ "logConsole" := VFun (Opaque 0) ]};
     3%positive := key_map ]}.


(** no [hotKeyHandlers] on the target *)
Definition h_missing : heap :=
  {[ 1%positive := {[ "title" := VStr "box" ]};
     3%positive := key_map ]}.

(** [componentProps = {handlers: {other: g}}] on top of a heap *)
Definition with_override (h : heap) : heap :=
  <[4%positive := {[ "handlers" := VObj 5%positive ]}]>
    (<[5%positive := {[ "other" := VFun (Opaque 1) ]}]> h).

(** [componentProps = {component: "span", foo: "bar"}] on top of a heap *)
Definition with_span (h : heap) : heap :=
  <[4%positive := {[ "component" := VStr "span"; "foo" := VStr "bar" ]}]> h.

Definition caller : obj := {[ "id" := VStr "x" ]}.

End Examples.
Export Examples.

(** ** Further scenarios

    The first render of a mount on its own, and an assignment to a property
    of a heap object by code outside the wrapper (the target changing one
    of its own fields, say). *)

Module Scenarios.

Section Scenarios.

Variable cls : component_class.

(** The first steps of [mount], up to the tree of the first render. *)
Definition first_render (config : obj) : M element :=
  emit (EHook Hconstructor) ;;
  cls_constructor cls (props_of_config config) ;;
  emit (EHook Hrender) ;;
  cls_render cls.

End Scenarios.

(** [o.k = v] on the object at [l]. *)
Definition assign (l : loc) (k : string) (v : val) : M unit :=
  modify (with_heap (λ h, <[l := <[k := v]> (default ∅ (h !! l))]> h)).

Definition is_ref_call (e : event) : bool :=
  match e with ERefCall _ _ => true | _ => false end.

(** A target whose [hotKeyHandlers] is not a map at all. *)
Definition h_number : heap :=
  {[ 1%positive := {[ "hotKeyHandlers" := VNum 7 ]};
     3%positive := key_map ]}.

(** [componentProps = {children: "x", ref: r}] on top of a heap. *)
Definition with_children (h : heap) : heap :=
  <[4%positive := {[ "children" := VStr "x"; "ref" := VFun (Opaque 9) ]}]> h.

End Scenarios.
Export Scenarios.

(** * Properties *)

(** ** Objects, the heap, elements *)

Section Objects.

Implicit Types (o dst src config : obj) (h : heap) (v : val) (k : string).

(** Spreading [src] over [dst] is the union in which [src] wins. *)
Lemma object_spread_union dst src : object_spread dst src = src ∪ dst.
Proof.
  unfold object_spread.
  apply (map_fold_weak_ind (λ r m, r = m ∪ dst)).
  - symmetry. apply (left_id_L ∅ (∪)).
  - intros i x m r _ ->. apply insert_union_l.
Qed.

Lemma object_spread_lookup dst src k :
  object_spread dst src !! k =
    match src !! k with
    | Some v => Some v
    | None => dst !! k
    end.
Proof.
  rewrite object_spread_union, lookup_union.
  destruct (src !! k), (dst !! k); reflexivity.
Qed.

(** Allocating an empty object at a fresh location changes no read
    through a value. *)
Lemma own_props_alloc h v :
  own_props (<[fresh (dom h) := ∅]> h) v = own_props h v.
Proof.
  destruct v as [| | | | | |l]; try reflexivity. simpl.
  destruct (decide (l = fresh (dom h))) as [->|Hne].
  - rewrite lookup_insert_eq.
    assert (h !! fresh (dom h) = None) as ->
      by apply not_elem_of_dom, is_fresh.
    reflexivity.
  - by rewrite lookup_insert_ne.
Qed.

Lemma field_alloc h v k :
  field (<[fresh (dom h) := ∅]> h) v k = field h v k.
Proof. unfold field. by rewrite own_props_alloc. Qed.

Lemma lookup_alloc_old h o (l : loc) :
  l ∈ dom h → <[fresh (dom h) := o]> h !! l = h !! l.
Proof.
  intros Hl. apply lookup_insert_ne. intros <-. by apply (is_fresh (dom h)).
Qed.

Lemma string_props_lookup i s k v :
  string_props i s !! k = Some v → ∃ c, v = VStr c.
Proof.
  revert i. induction s as [|c s IH]; intros i; cbn [string_props].
  - by rewrite lookup_empty.
  - rewrite lookup_insert. case_decide; [|by apply IH].
    intros [= <-]. by eexists.
Qed.

(** In a closed heap a property never is a reference the heap has not
    allocated. *)
Lemma heap_closed_field h v k :
  heap_closed h → val_in_heap h (field h v k).
Proof.
  intros Hc. unfold field.
  destruct (own_props h v !! k) as [x|] eqn:Hk; [|exact I]. cbn [default].
  destruct v as [| | | |s| |l]; cbn [own_props] in Hk;
    try by rewrite lookup_empty in Hk.
  - apply string_props_lookup in Hk as [c ->]. exact I.
  - destruct (h !! l) as [o|] eqn:Hl; cbn [default] in Hk;
      [|by rewrite lookup_empty in Hk].
    exact (Hc l o Hl k x Hk).
Qed.

Lemma val_in_heap_not_fresh h v :
  val_in_heap h v → v ≠ VObj (fresh (dom h)).
Proof. intros Hv ->. by apply (is_fresh (dom h)). Qed.

Lemma props_of_config_lookup config k :
  props_of_config config !! k =
    if decide (k ∈ RESERVED_PROPS) then None else config !! k.
Proof.
  unfold props_of_config. rewrite map_lookup_filter.
  destruct (config !! k) as [x|]; simpl.
  - case_decide.
    + rewrite option_guard_False; [done|]. simpl. tauto.
    + by rewrite option_guard_True.
  - by case_decide.
Qed.

Lemma ref_reserved : "ref" ∈ RESERVED_PROPS.
Proof. by apply (bool_decide_unpack _). Qed.

Lemma props_of_config_reserved config k :
  k ∈ RESERVED_PROPS → props_of_config config !! k = None.
Proof. intros Hk. rewrite props_of_config_lookup. by rewrite decide_True. Qed.

Lemma shallowEqual_true (a b : obj) : shallowEqual a b = true ↔ a = b.
Proof.
  unfold shallowEqual. rewrite andb_true_iff, !bool_decide_eq_true. split.
  - intros [Hsz Hall]. apply map_subseteq_size_eq; [|lia].
    apply map_subseteq_spec. intros k v Hk. exact (Hall k v Hk).
  - intros ->. split; [done|]. by intros k v Hk.
Qed.

Lemma shallowEqual_refl (a : obj) : shallowEqual a a = true.
Proof. by apply shallowEqual_true. Qed.

Lemma shallowEqual_false (a b : obj) : a ≠ b → shallowEqual a b = false.
Proof.
  intros Hne. destruct (shallowEqual a b) eqn:E; [|done].
  by apply shallowEqual_true in E.
Qed.

End Objects.

(** ** Running the monad, one step at a time *)

Section Steps.

Context {A B : Type}.
Implicit Types (w : world) (k : A → M B).

Lemma bind_Ok (m : M A) k w a w' :
  m w = Ok (a, w') → (m ≫= k) w = k a w'.
Proof. intros E. unfold mbind, M_bind. by rewrite E. Qed.

Lemma bind_Throw (m : M A) k w e :
  m w = Throw e → (m ≫= k) w = Throw e.
Proof. intros E. unfold mbind, M_bind. by rewrite E. Qed.

Lemma bind_ret (a : A) k w : (mret a ≫= k) w = k a w.
Proof. reflexivity. Qed.

Lemma bind_gets (f : world → A) k w : (gets f ≫= k) w = k (f w) w.
Proof. reflexivity. Qed.

Lemma bind_this (f : instance → A) k w :
  (this f ≫= k) w = k (f (w_this w)) w.
Proof. reflexivity. Qed.

Lemma bind_bind {C} (m : M C) (f : C → M A) k w :
  ((m ≫= f) ≫= k) w = (m ≫= λ x, f x ≫= k) w.
Proof. unfold mbind, M_bind. by destruct (m w) as [[]|]. Qed.

End Steps.

Lemma bind_modify {B} (f : world → world) (k : unit → M B) w :
  (modify f ≫= k) w = k tt (f w).
Proof. reflexivity. Qed.

Lemma bind_emit {B} (e : event) (k : unit → M B) w :
  (emit e ≫= k) w = k tt (with_trace (λ t, t ++ [e]) w).
Proof. reflexivity. Qed.

Ltac norm :=
  unfold set_props, set_state, set_ref, set_own_setRef;
  unfold with_heap, with_this, with_queue, with_trace, with_phase, with_tree,
    with_node;
  cbn [with_heap with_this with_queue with_trace with_phase with_tree
       with_node w_heap w_this w_queue w_trace w_phase w_tree w_node
       props state _ref own_setRef boot bare app].

Ltac mstep :=
  first [ rewrite bind_bind | rewrite bind_emit | rewrite bind_modify
        | rewrite bind_this | rewrite bind_gets | rewrite bind_ret ];
  norm.

(** ** The methods and the life cycle, in closed form *)

Section Wrapper.
Variables (keyMap componentProps : val) (Component : component).
Abbreviation cls := (HotKeysWrapper keyMap componentProps Component).
Abbreviation view' := (view keyMap componentProps Component).
Abbreviation settled' := (settled keyMap componentProps Component).

Lemma constructor_eq p h i q t ph tr n :
  constructor p (World h i q t ph tr n) =
    Ok (tt, World (<[fresh (dom h) := ∅]> h)
              (Instance p (initial_state h) (_ref i) the_setRef)
              q (t ++ [EAlloc (fresh (dom h))]) ph tr n).
Proof. reflexivity. Qed.

Lemma render_eq w :
  render keyMap componentProps Component w =
    Ok (createElement HotKeys
          (dispatch_props keyMap
             (default VUndef (state (w_this w) !! "handlers"))
             (own_props (w_heap w) componentProps))
          [createElement Component
             (target_config (own_setRef (w_this w)) (props (w_this w))) []],
        w).
Proof. reflexivity. Qed.

(** Props that came out of [createElement] have no [ref], so the ref of
    the target element is the bound [_setRef]. *)
Lemma target_refs_view h st config :
  target_refs
    (view keyMap componentProps Component h st (props_of_config config))
  = [the_setRef].
Proof.
  unfold view, target_refs, createElement. simpl. f_equal.
  unfold special, target_config. rewrite object_spread_lookup.
  rewrite props_of_config_reserved by apply ref_reserved.
  by rewrite lookup_singleton_eq.
Qed.

Lemma call_refs_setRef node h p s r b q t ph tr n :
  call_refs cls node [the_setRef] (World h (Instance p s r b) q t ph tr n) =
    Ok (tt, World h (Instance p s node b) q
              (t ++ [ERefCall "_setRef" node]) ph tr n).
Proof. reflexivity. Qed.

Lemma componentDidMount_eq h p s r b q t ph tr n :
  nullish r = false →
  componentDidMount (World h (Instance p s r b) q t ph tr n) =
    Ok (tt, World h (Instance p s r b)
              (q ++ [{[ "handlers" := field h r "hotKeyHandlers" ]}])
              (t ++ [EGet r "hotKeyHandlers";
                     ESetState {[ "handlers" := field h r "hotKeyHandlers" ]}])
              ph tr n).
Proof.
  intros Hr. unfold componentDidMount. mstep.
  unfold get. rewrite Hr. repeat mstep.
  unfold setState. mstep. unfold modify. norm.
  by rewrite <- app_assoc.
Qed.

Lemma componentDidMount_throw h p s r b q t ph tr n :
  nullish r = true →
  componentDidMount (World h (Instance p s r b) q t ph tr n)
  = Throw TypeError.
Proof.
  intros Hr. unfold componentDidMount. mstep.
  unfold get. rewrite Hr. reflexivity.
Qed.

Lemma render_view h p st r q t ph tr n :
  render keyMap componentProps Component
    (World h (Instance p st r the_setRef) q t ph tr n) =
  Ok (view' h st p, World h (Instance p st r the_setRef) q t ph tr n).
Proof. reflexivity. Qed.

(** A further render of an instance whose props came out of
    [createElement] calls no ref: the ref of the target has not changed. *)
Lemma rerender_eq h st config r q t ph h0 st0 config0 n :
  rerender cls
    (World h (Instance (props_of_config config) st r the_setRef) q t ph
       (Some (view' h0 st0 (props_of_config config0))) n) =
  Ok (tt, World h (Instance (props_of_config config) st r the_setRef) q
            (t ++ [EHook Hrender]) ph
            (Some (view' h st (props_of_config config))) n).
Proof.
  unfold rerender. mstep.
  erewrite bind_Ok by apply render_view. repeat mstep.
  cbn [from_option]. rewrite !target_refs_view.
  rewrite decide_True by done. mstep. reflexivity.
Qed.

Lemma spread_handlers (a b : val) :
  object_spread {[ "handlers" := a ]} ({[ "handlers" := b ]} : obj)
  = {[ "handlers" := b ]}.
Proof.
  apply map_eq. intros k. rewrite object_spread_lookup.
  destruct (decide (k = "handlers")) as [->|Hk].
  - by rewrite !lookup_singleton_eq.
  - by rewrite !lookup_singleton_ne.
Qed.

Lemma flush_empty h i t ph tr n :
  flush cls (World h i [] t ph tr n) = Ok (tt, World h i [] t ph tr n).
Proof. reflexivity. Qed.

Lemma mount_spec h config node :
  nullish node = false →
  mount cls config (Some node) (boot h) =
    Ok (tt, settled' (<[fresh (dom h) := ∅]> h) (activated_state h node)
              node Mounted config (mount_trace h node)).
Proof.
  intros Hn. unfold mount. mstep.
  erewrite bind_Ok by apply constructor_eq. mstep.
  erewrite bind_Ok by apply render_view. repeat mstep.
  rewrite target_refs_view.
  erewrite bind_Ok by apply call_refs_setRef. mstep.
  cbn [cls_componentDidMount HotKeysWrapper]. mstep. mstep.
  erewrite bind_Ok by (by apply componentDidMount_eq).
  unfold flush. repeat mstep.
  cbn [foldl]. rewrite field_alloc.
  rewrite (spread_handlers (VObj (fresh (dom h)))
             (field h node "hotKeyHandlers")
           : object_spread (initial_state h) _ = _).
  unfold should_update. cbn [extends_PureComponent HotKeysWrapper andb].
  rewrite shallowEqual_refl. cbn [andb].
  unfold settled, mount_trace, activated_state, captured.
  destruct (decide (field h node "hotKeyHandlers" = VObj (fresh (dom h))))
    as [Hc|Hc].
  - assert (initial_state h
            = {[ "handlers" := field h node "hotKeyHandlers" ]}) as ->
      by (unfold initial_state; by rewrite Hc).
    rewrite shallowEqual_refl. reflexivity.
  - rewrite shallowEqual_false.
    2:{ unfold initial_state. intros E. apply Hc.
        apply (f_equal (λ m : obj, m !! "handlers")) in E.
        rewrite !lookup_singleton_eq in E. congruence. }
    cbn [negb]. rewrite rerender_eq. reflexivity.
Qed.

Lemma mount_without_node h config :
  mount cls config None (boot h) = Throw TypeError.
Proof.
  unfold mount. mstep.
  erewrite bind_Ok by apply constructor_eq. mstep.
  erewrite bind_Ok by apply render_view. repeat mstep.
  cbn [cls_componentDidMount HotKeysWrapper]. mstep. mstep.
  erewrite bind_Throw by (by apply componentDidMount_throw).
  reflexivity.
Qed.

Lemma mount_nullish_node h config node :
  nullish node = true →
  mount cls config (Some node) (boot h) = Throw TypeError.
Proof.
  intros Hn. unfold mount. mstep.
  erewrite bind_Ok by apply constructor_eq. mstep.
  erewrite bind_Ok by apply render_view. repeat mstep.
  rewrite target_refs_view.
  erewrite bind_Ok by apply call_refs_setRef. mstep.
  cbn [cls_componentDidMount HotKeysWrapper]. mstep. mstep.
  erewrite bind_Throw by (by apply componentDidMount_throw).
  reflexivity.
Qed.

Lemma update_spec h st node config tr config' :
  update cls config' (settled' h st node Mounted config tr) =
    Ok (tt, settled' h st node Mounted config'
              (tr ++ react_trace config (ParentRender config'))).
Proof.
  unfold update, settled. repeat mstep.
  unfold should_update. cbn [extends_PureComponent HotKeysWrapper andb].
  rewrite (shallowEqual_refl st), andb_true_r. unfold react_trace.
  destruct (decide (props_of_config config = props_of_config config'))
    as [E|E].
  - rewrite E, shallowEqual_refl. cbn [negb]. mstep.
    rewrite flush_empty. by rewrite app_nil_r.
  - rewrite shallowEqual_false by done. cbn [negb].
    erewrite bind_Ok by apply rerender_eq.
    by rewrite flush_empty.
Qed.

Lemma unmount_spec h st node config tr :
  unmount cls (settled' h st node Mounted config tr) =
    Ok (tt, settled' h st node TornDown config
              (tr ++ react_trace config Teardown)).
Proof.
  unfold unmount, settled. repeat mstep. cbn [from_option].
  rewrite target_refs_view.
  erewrite bind_Ok by apply call_refs_setRef. reflexivity.
Qed.

Lemma react_torn_down s h st node config tr :
  react cls s (settled' h st node TornDown config tr) =
    Ok (tt, settled' h st node TornDown config tr).
Proof. reflexivity. Qed.

Lemma run_torn_down ss h st node config tr :
  run cls ss (settled' h st node TornDown config tr) =
    Ok (tt, settled' h st node TornDown config tr).
Proof.
  induction ss as [|s ss IH]; [reflexivity|].
  cbn [run]. erewrite bind_Ok by apply react_torn_down. exact IH.
Qed.

Lemma run_spec ss h st node config tr :
  run cls ss (settled' h st node Mounted config tr) =
    Ok (tt, settled' h st node (outcome config ss).1 (outcome config ss).2
              (tr ++ run_trace config ss)).
Proof.
  revert config tr. induction ss as [|[config'|] ss IH]; intros config tr.
  - cbn [run outcome run_trace fst snd]. by rewrite app_nil_r.
  - cbn [run outcome run_trace].
    erewrite bind_Ok by (unfold react; mstep; apply update_spec).
    rewrite IH. by rewrite app_assoc.
  - cbn [run outcome run_trace fst snd].
    erewrite bind_Ok by (unfold react; mstep; apply unmount_spec).
    apply run_torn_down.
Qed.

Lemma lifetime_spec h config node ss :
  nullish node = false →
  lifetime cls config (Some node) ss (boot h) =
    Ok (tt, settled' (<[fresh (dom h) := ∅]> h) (activated_state h node)
              node (outcome config ss).1 (outcome config ss).2
              (mount_trace h node ++ run_trace config ss)).
Proof.
  intros Hn. unfold lifetime.
  erewrite bind_Ok by (by apply mount_spec). apply run_spec.
Qed.

End Wrapper.

(** ** The trace of a life *)

Section Traces.

Implicit Types (f : event → bool) (tr : list event) (ss : list stimulus).

Lemma count_app f tr1 tr2 :
  count f (tr1 ++ tr2) = count f tr1 + count f tr2.
Proof. unfold count. by rewrite List.filter_app, length_app. Qed.

(** Between activation and teardown the trace only grows by renders and
    by the detaching call of the ref. *)
Lemma run_trace_passive config ss :
  Forall (λ e, e = EHook Hrender ∨ e = ERefCall "_setRef" VNull)
    (run_trace config ss).
Proof.
  revert config. induction ss as [|[config'|] ss IH]; intros config.
  - constructor.
  - cbn [run_trace react_trace]. apply Forall_app. split; [|apply IH].
    case_decide; [constructor|].
    constructor; [by left | constructor].
  - cbn [run_trace react_trace]. constructor; [by right | constructor].
Qed.

Lemma filter_passive f tr :
  f (EHook Hrender) = false → f (ERefCall "_setRef" VNull) = false →
  Forall (λ e, e = EHook Hrender ∨ e = ERefCall "_setRef" VNull) tr →
  List.filter f tr = [].
Proof.
  intros Hr Hd. induction 1 as [|e tr [->| ->] _ IH].
  - reflexivity.
  - cbn [List.filter]. by rewrite Hr.
  - cbn [List.filter]. by rewrite Hd.
Qed.

Lemma count_passive f tr :
  f (EHook Hrender) = false → f (ERefCall "_setRef" VNull) = false →
  Forall (λ e, e = EHook Hrender ∨ e = ERefCall "_setRef" VNull) tr →
  count f tr = 0.
Proof. intros Hr Hd Htr. unfold count. by rewrite filter_passive. Qed.

(** The trace of a mount, filtered: the tail the state change decides
    is a render or nothing. *)
Lemma filter_mount_trace f h node :
  f (EHook Hrender) = false →
  List.filter f (mount_trace h node) =
    List.filter f
      [ EHook Hconstructor; EAlloc (fresh (dom h));
        ERefCall "_setRef" node; EHook HcomponentDidMount;
        EGet node "hotKeyHandlers"; ESetState (activated_state h node) ].
Proof.
  intros Hr. unfold mount_trace. rewrite List.filter_app.
  assert (List.filter f
            (if decide (captured h node = VObj (fresh (dom h)))
             then [] else [EHook Hrender]) = []) as ->.
  { case_decide; [reflexivity|]. cbn [List.filter]. by rewrite Hr. }
  rewrite app_nil_r. cbn [List.filter]. by rewrite Hr.
Qed.

Lemma mount_trace_renders h node :
  count (is_hook Hrender) (mount_trace h node) =
    if decide (captured h node = VObj (fresh (dom h))) then 1 else 2.
Proof. unfold mount_trace. by case_decide. Qed.

Lemma run_trace_renders config ss :
  (count (is_hook Hrender) (run_trace config ss) ≤ parent_renders ss)%nat.
Proof.
  revert config. unfold parent_renders.
  induction ss as [|[config'|] ss IH]; intros config.
  - reflexivity.
  - cbn [run_trace react_trace List.filter is_parent_render length].
    rewrite count_app.
    specialize (IH config').
    assert (count (is_hook Hrender) [EHook Hrender] = 1) as E1
      by reflexivity.
    assert (count (is_hook Hrender) [] = 0) as E0 by reflexivity.
    case_decide; [rewrite E0 | rewrite E1]; lia.
  - cbn [run_trace react_trace].
    assert (count (is_hook Hrender) [ERefCall "_setRef" VNull] = 0) as ->
      by reflexivity.
    lia.
Qed.

End Traces.

(** ** The properties handed to the dispatch unit *)

Lemma dispatch_props_lookup keyMap handlers (extra : obj) k :
  dispatch_props keyMap handlers extra !! k =
    match extra !! k with
    | Some v => Some v
    | None => internal keyMap handlers k
    end.
Proof.
  unfold dispatch_props. rewrite object_spread_lookup.
  destruct (extra !! k); [reflexivity|]. unfold internal.
  repeat case_decide; subst; by simplify_map_eq.
Qed.

(** What [createElement] keeps of a [config] once a child is given. *)
Lemma createElement_props_lookup type config child k :
  k ∉ RESERVED_PROPS → k ≠ "children" →
  el_props (createElement type config [child]) !! k = config !! k.
Proof.
  intros Hr Hc. cbn [createElement el_props].
  rewrite lookup_delete_ne by done.
  rewrite props_of_config_lookup. by rewrite decide_False.
Qed.

(** C1: on every render the object [props] handed to the dispatch unit is
    the literal [{keyMap, handlers: this.state.handlers, component:
    "document-fragment"}] with [componentProps] spread last.  An own key of
    [componentProps] carries the value [componentProps] gives it, also
    when the key is [keyMap], [handlers] or [component]; every other key
    keeps the entry of the literal.  The element built from [props]
    holds these entries under every key React does not reserve. *)
Theorem dispatch_props_ordered_merge keyMap componentProps Component
    (w : world) :
  let handlers := default VUndef (state (w_this w) !! "handlers") in
  let extra := own_props (w_heap w) componentProps in
  ∃ props target,
    render keyMap componentProps Component w
      = Ok (createElement HotKeys props [target], w)
    ∧ props = dispatch_props keyMap handlers extra
    ∧ (∀ k v, extra !! k = Some v → props !! k = Some v)
    ∧ (∀ k, extra !! k = None → props !! k = internal keyMap handlers k)
    ∧ (∀ k, k ∉ RESERVED_PROPS → k ≠ "children" →
         el_props (createElement HotKeys props [target]) !! k = props !! k).
Proof.
  intros handlers extra.
  exists (dispatch_props keyMap handlers extra),
    (createElement Component
       (target_config (own_setRef (w_this w)) (props (w_this w))) []).
  split; [apply render_eq|]. split; [reflexivity|].
  clearbody handlers extra.
  split; [|split].
  - intros k v Hk. by rewrite dispatch_props_lookup, Hk.
  - intros k Hk. by rewrite dispatch_props_lookup, Hk.
  - intros k Hr Hc. by apply createElement_props_lookup.
Qed.

(** P3, P4 and the scenario of the specification on concrete heaps: the
    dispatch unit gets the key map, the target's handler map and the fragment
    container; with [componentProps = {component: "span", foo: "bar"}] it
    gets [foo] next to the computed entries and ["span"] in place of
    ["document-fragment"]. *)
Example dispatch_props_scenario :
  ∃ w tree,
    lifetime (HotKeysWrapper ACTION_KEY_MAP VUndef BasicBox) caller
      (Some target) [] (boot h_basic) = Ok (tt, w)
    ∧ w_tree w = Some tree
    ∧ el_props tree =
        {[ "keyMap" := ACTION_KEY_MAP; "handlers" := VObj 2%positive;
           "component" := VStr "document-fragment" ]}.
Proof.
  rewrite lifetime_spec by reflexivity.
  eexists _, _. split; [reflexivity|]. split; [reflexivity|].
  vm_compute. reflexivity.
Qed.

Example dispatch_props_span :
  ∃ w tree,
    lifetime (HotKeysWrapper ACTION_KEY_MAP options BasicBox) caller
      (Some target) [] (boot (with_span h_basic)) = Ok (tt, w)
    ∧ w_tree w = Some tree
    ∧ el_props tree =
        {[ "keyMap" := ACTION_KEY_MAP; "handlers" := VObj 2%positive;
           "component" := VStr "span"; "foo" := VStr "bar" ]}.
Proof.
  rewrite lifetime_spec by reflexivity.
  eexists _, _. split; [reflexivity|]. split; [reflexivity|].
  vm_compute. reflexivity.
Qed.

(** ** The factory *)

(** C8: applying [withHotKeys(keyMap, componentProps)] and then the
    result to [Component] returns the class and nothing else: for all
    arguments (any [keyMap], [componentProps] absent or not an object) no
    exception is raised and the heap, the instance, the update queue and
    the trace are as before.  What can fail fails when the class is
    mounted: on a target that gives no instance, mounting raises. *)
Theorem withHotKeys_definitional keyMap componentProps Component
    (w w' : world) :
  ∃ wrap,
    withHotKeys keyMap componentProps w = Ok (wrap, w)
    ∧ wrap Component w'
        = Ok (HotKeysWrapper keyMap componentProps Component, w')
    ∧ ∀ h config,
        mount (HotKeysWrapper keyMap componentProps Component) config None
          (boot h) = Throw TypeError.
Proof.
  eexists. split; [reflexivity|]. split; [reflexivity|].
  intros h config. apply mount_without_node.
Qed.

(** ** Activation without an instance *)

Lemma componentDidMount_guard (w : world) :
  componentDidMount w = Throw TypeError ↔ nullish (_ref (w_this w)) = true.
Proof.
  destruct w as [h [p s r b] q t ph tr n]. cbn [w_this _ref].
  destruct (nullish r) eqn:Hr.
  - by rewrite componentDidMount_throw.
  - by rewrite componentDidMount_eq.
Qed.

(** C10: [componentDidMount] reads [this._ref.hotKeyHandlers] with no
    guard: it raises a [TypeError] exactly when [this._ref] is [null] or
    [undefined].  Mounting therefore completes only when the host hands the
    ref callback an instance; when it hands [null] or [undefined], or never
    calls the ref, mounting raises the [TypeError]. *)
Theorem activation_needs_instance keyMap componentProps Component h config
    (node : option val) :
  let cls := HotKeysWrapper keyMap componentProps Component in
  (∀ w, componentDidMount w = Throw TypeError
        ↔ nullish (_ref (w_this w)) = true)
  ∧ match node with
    | Some v =>
        if nullish v then mount cls config node (boot h) = Throw TypeError
        else ∃ w, mount cls config node (boot h) = Ok (tt, w)
                  ∧ w_phase w = Mounted
    | None => mount cls config node (boot h) = Throw TypeError
    end.
Proof.
  intros cls. split; [apply componentDidMount_guard|].
  destruct node as [v|]; [|apply mount_without_node].
  destruct (nullish v) eqn:Hv; [by apply mount_nullish_node|].
  eexists. split; [by apply mount_spec|reflexivity].
Qed.

(** ** The captured handler map in the state *)

(** C2: the constructor sets [state.handlers] to a new empty object; over
    the whole life of an instance whose target mounted (the ref got an
    instance), [setState] is called once, by [componentDidMount], and
    nothing else writes the state: whatever parent renders and teardown
    follow, the state is the one activation committed. *)
Theorem handlers_state_written_once keyMap componentProps Component
    h config node ss :
  nullish node = false →
  let cls := HotKeysWrapper keyMap componentProps Component in
  (∃ w0 l,
      constructor (props_of_config config) (boot h) = Ok (tt, w0)
      ∧ state (w_this w0) = {[ "handlers" := VObj l ]}
      ∧ (l ∉ dom h) ∧ w_heap w0 !! l = Some ∅ ∧ w_queue w0 = [])
  ∧ ∃ w,
      lifetime cls config (Some node) ss (boot h) = Ok (tt, w)
      ∧ List.filter (λ e, is_setState e || is_hook HcomponentDidMount e)
          (w_trace w)
        = [EHook HcomponentDidMount; ESetState (activated_state h node)]
      ∧ count is_setState (w_trace w) = 1
      ∧ state (w_this w) = activated_state h node
      ∧ w_queue w = [].
Proof.
  intros Hn cls. split.
  - eexists _, (fresh (dom h)). split; [apply constructor_eq|].
    cbn [w_this state w_heap w_queue]. split; [reflexivity|].
    split; [apply is_fresh|]. split; [apply lookup_insert_eq|reflexivity].
  - eexists. split; [by apply lifetime_spec|].
    cbn [settled w_trace w_this state w_queue].
    pose proof (run_trace_passive config ss) as Hp.
    split; [|split; [|done]].
    + rewrite List.filter_app, filter_mount_trace by reflexivity.
      rewrite (filter_passive _ _ eq_refl eq_refl Hp). reflexivity.
    + rewrite count_app, (count_passive _ _ eq_refl eq_refl Hp).
      unfold count. rewrite filter_mount_trace by reflexivity. reflexivity.
Qed.

Lemma handlers_state_written_once_witness :
  nullish target = false
  ∧ ∃ w,
      lifetime (HotKeysWrapper ACTION_KEY_MAP VUndef BasicBox) caller
        (Some target) [ParentRender ∅; Teardown] (boot h_basic) = Ok (tt, w)
      ∧ count is_setState (w_trace w) = 1
      ∧ state (w_this w) = {[ "handlers" := VObj 2%positive ]}.
Proof.
  split; [reflexivity|].
  destruct (handlers_state_written_once ACTION_KEY_MAP VUndef BasicBox
              h_basic caller target [ParentRender ∅; Teardown] eq_refl)
    as (_ & w & Hw & _ & Hc & Hs & _).
  exists w. split; [exact Hw|]. split; [exact Hc|].
  rewrite Hs. vm_compute. reflexivity.
Defined.

(** ** Activation and the renders *)

Lemma captured_not_fresh h node :
  heap_closed h → captured h node ≠ VObj (fresh (dom h)).
Proof.
  intros Hc. apply val_in_heap_not_fresh. by apply heap_closed_field.
Qed.

(** C4: in the life of an instance whose target mounted,
    [componentDidMount] runs once, after the first render and the ref
    call, and never on a render by the parent; it calls [setState] once,
    and that one update is followed by at most one render: exactly one on
    a heap without dangling references, where the target's map cannot be
    the object the constructor has just allocated.  Each render by the
    parent adds at most one render. *)
Theorem activation_once keyMap componentProps Component h config node ss :
  nullish node = false →
  let cls := HotKeysWrapper keyMap componentProps Component in
  ∃ w,
    lifetime cls config (Some node) ss (boot h) = Ok (tt, w)
    ∧ w_trace w = mount_trace h node ++ run_trace config ss
    ∧ count (is_hook HcomponentDidMount) (w_trace w) = 1
    ∧ count (is_hook HcomponentDidMount) (run_trace config ss) = 0
    ∧ count is_setState (w_trace w) = 1
    ∧ (count (is_hook Hrender) (mount_trace h node) ≤ 2)%nat
    ∧ (heap_closed h → count (is_hook Hrender) (mount_trace h node) = 2)
    ∧ (count (is_hook Hrender) (run_trace config ss) ≤ parent_renders ss)%nat.
Proof.
  intros Hn cls. eexists. split; [by apply lifetime_spec|].
  cbn [settled w_trace]. split; [reflexivity|].
  pose proof (run_trace_passive config ss) as Hp.
  assert (∀ f, f (EHook Hrender) = false →
               f (ERefCall "_setRef" VNull) = false →
               count f (mount_trace h node ++ run_trace config ss)
               = count f [ EHook Hconstructor; EAlloc (fresh (dom h));
                           ERefCall "_setRef" node; EHook HcomponentDidMount;
                           EGet node "hotKeyHandlers";
                           ESetState (activated_state h node) ]) as Hcount.
  { intros f Hr Hd. rewrite count_app, (count_passive _ _ Hr Hd Hp).
    unfold count. rewrite filter_mount_trace by done. lia. }
  split; [by rewrite Hcount|].
  split; [by apply count_passive|].
  split; [by rewrite Hcount|].
  rewrite mount_trace_renders.
  split; [case_decide; lia|].
  split; [|apply run_trace_renders].
  intros Hc. rewrite decide_False; [done|]. by apply captured_not_fresh.
Qed.

Lemma activation_once_witness :
  nullish target = false
  ∧ heap_closed h_basic
  ∧ ∃ w,
      lifetime (HotKeysWrapper ACTION_KEY_MAP VUndef BasicBox) caller
        (Some target) [ParentRender caller; ParentRender ∅] (boot h_basic)
        = Ok (tt, w)
      ∧ count (is_hook HcomponentDidMount) (w_trace w) = 1
      ∧ count (is_hook Hrender) (mount_trace h_basic target) = 2.
Proof.
  split; [reflexivity|].
  assert (heap_closed h_basic) as Hc
    by (apply (bool_decide_unpack _); vm_compute; exact I).
  split; [exact Hc|].
  destruct (activation_once ACTION_KEY_MAP VUndef BasicBox h_basic caller
              target [ParentRender caller; ParentRender ∅] eq_refl)
    as (w & Hw & _ & Hd & _ & _ & _ & Hr & _).
  exists w. split; [exact Hw|]. split; [exact Hd|exact (Hr Hc)].
Defined.

(** ** The properties of the caller *)

(** Props that came out of [createElement] come back out of the target's
    [config]: the [ref] attribute is taken off again, nothing else is. *)
Lemma target_config_props setRef config :
  props_of_config (target_config setRef (props_of_config config))
  = props_of_config config.
Proof.
  apply map_eq. intros k. unfold target_config.
  rewrite props_of_config_lookup, object_spread_lookup.
  rewrite props_of_config_lookup.
  case_decide as Hk; [reflexivity|].
  destruct (config !! k); [reflexivity|].
  apply lookup_singleton_ne. intros <-. apply Hk.
  unfold RESERVED_PROPS. set_solver.
Qed.

(** C5: at every point of the life of a mounted instance the target
    element of the committed tree has the wrapper's own props as its props
    (for the [config] the caller last gave: every entry but those under
    the keys React reserves, with the value the caller gave, and nothing
    else) and the bound [_setRef] as its ref. *)
Theorem caller_props_forwarded keyMap componentProps Component
    h config node ss :
  nullish node = false →
  let cls := HotKeysWrapper keyMap componentProps Component in
  let given := (outcome config ss).2 in
  ∃ w tree target,
    lifetime cls config (Some node) ss (boot h) = Ok (tt, w)
    ∧ w_tree w = Some tree
    ∧ el_type tree = HotKeys
    ∧ el_children tree = [target]
    ∧ el_type target = Component
    ∧ el_ref target = the_setRef
    ∧ el_props target = props (w_this w)
    ∧ props (w_this w) = props_of_config given
    ∧ (∀ k, k ∉ RESERVED_PROPS → el_props target !! k = given !! k)
    ∧ (∀ k, k ∈ RESERVED_PROPS → el_props target !! k = None).
Proof.
  intros Hn cls given.
  eexists _, _, _. split; [by apply lifetime_spec|].
  cbn [settled w_tree w_this props]. split; [reflexivity|].
  split; [reflexivity|]. split; [reflexivity|]. split; [reflexivity|].
  fold given. split.
  { pose proof (target_refs_view keyMap componentProps Component
                  (<[fresh (dom h):=∅]> h) (activated_state h node) given) as E.
    by injection E. }
  cbn [createElement el_props]. rewrite target_config_props.
  split; [reflexivity|]. split; [reflexivity|]. split.
  - intros k Hk. rewrite props_of_config_lookup. by rewrite decide_False.
  - intros k Hk. by apply props_of_config_reserved.
Qed.

Lemma caller_props_forwarded_witness :
  nullish target = false
  ∧ ∃ w tree target',
      lifetime (HotKeysWrapper ACTION_KEY_MAP VUndef BasicBox)
        (<["key" := VStr "k"]> caller) (Some target) [] (boot h_basic)
        = Ok (tt, w)
      ∧ w_tree w = Some tree
      ∧ el_children tree = [target']
      ∧ el_props target' = {[ "id" := VStr "x" ]}.
Proof.
  split; [reflexivity|].
  destruct (caller_props_forwarded ACTION_KEY_MAP VUndef BasicBox h_basic
              (<["key" := VStr "k"]> caller) target [] eq_refl)
    as (w & tree & tg & Hw & Ht & _ & Hc & _ & _ & Hp & Hq & _).
  exists w, tree, tg. split; [exact Hw|]. split; [exact Ht|].
  split; [exact Hc|]. rewrite Hp, Hq. vm_compute. reflexivity.
Defined.

(** ** The handler map the dispatch unit gets *)

(** A read that yields an object was a read through an object. *)
Lemma captured_object h node l : captured h node = VObj l → nullish node = false.
Proof. by destruct node. Qed.

(** The [handlers] entry of the committed tree: the one of
    [componentProps] when it has one of its own, the state's otherwise. *)
Lemma handlers_not_reserved : "handlers" ∉ RESERVED_PROPS.
Proof. by apply (bool_decide_unpack _). Qed.

Lemma view_handlers keyMap componentProps Component h (v : val) own :
  el_props (view keyMap componentProps Component h {[ "handlers" := v ]} own)
    !! "handlers"
  = match own_props h componentProps !! "handlers" with
    | Some v' => Some v'
    | None => Some v
    end.
Proof.
  unfold view.
  rewrite createElement_props_lookup by (done || apply handlers_not_reserved).
  rewrite dispatch_props_lookup, lookup_singleton_eq. cbn [default].
  by destruct (own_props h componentProps !! "handlers").
Qed.

(** C3, as stated, fails: with [componentProps = {handlers: {other: g}}]
    the target declares the object at location 2, a non-empty map, and the
    dispatch unit gets the object at location 5. *)
Lemma handlers_identity_overridden :
  ∃ w tree,
    lifetime (HotKeysWrapper ACTION_KEY_MAP options BasicBox) caller
      (Some target) [] (boot (with_override h_basic)) = Ok (tt, w)
    ∧ w_tree w = Some tree
    ∧ captured (with_override h_basic) target = VObj 2%positive
    ∧ with_override h_basic !! 2%positive
        = Some {[ "logConsole" := VFun (Opaque 0) ]}
    ∧ el_props tree !! "handlers" = Some (VObj 5%positive)
    ∧ VObj 5%positive ≠ VObj 2%positive.
Proof.
  rewrite lifetime_spec by reflexivity.
  eexists _, _. split; [reflexivity|]. split; [reflexivity|].
  split; [vm_compute; reflexivity|]. split; [vm_compute; reflexivity|].
  split; [vm_compute; reflexivity|discriminate].
Qed.

(** C3, amended: when [componentProps] has no own [handlers] property and
    the target's [hotKeyHandlers] is an object of the heap, then after
    activation, and for as long as the instance lives, the [handlers] the
    dispatch unit gets is that very reference, the state holds it, and the
    object behind it is as the target declared it. *)
Theorem handlers_identity keyMap componentProps Component
    h config node ss (lh : loc) (o : obj) :
  captured h node = VObj lh →
  h !! lh = Some o →
  own_props h componentProps !! "handlers" = None →
  let cls := HotKeysWrapper keyMap componentProps Component in
  ∃ w tree,
    lifetime cls config (Some node) ss (boot h) = Ok (tt, w)
    ∧ w_tree w = Some tree
    ∧ state (w_this w) !! "handlers" = Some (VObj lh)
    ∧ el_props tree !! "handlers" = Some (VObj lh)
    ∧ w_heap w !! lh = Some o.
Proof.
  intros Hcap Ho Hnone cls.
  eexists _, _. split.
  { apply lifetime_spec. by eapply captured_object. }
  cbn [settled w_tree w_this state w_heap]. split; [reflexivity|].
  unfold activated_state. rewrite Hcap. split; [apply lookup_singleton_eq|].
  split.
  - rewrite view_handlers, own_props_alloc. by rewrite Hnone.
  - rewrite lookup_alloc_old; [done|]. apply elem_of_dom. by exists o.
Qed.

Lemma handlers_identity_witness :
  captured h_basic target = VObj 2%positive
  ∧ h_basic !! 2%positive = Some {[ "logConsole" := VFun (Opaque 0) ]}
  ∧ own_props h_basic VUndef !! "handlers" = None
  ∧ ∃ w tree,
      lifetime (HotKeysWrapper ACTION_KEY_MAP VUndef BasicBox) caller
        (Some target) [ParentRender ∅] (boot h_basic) = Ok (tt, w)
      ∧ w_tree w = Some tree
      ∧ el_props tree !! "handlers" = Some (VObj 2%positive).
Proof.
  assert (captured h_basic target = VObj 2%positive) as H1
    by (vm_compute; reflexivity).
  assert (h_basic !! 2%positive = Some {[ "logConsole" := VFun (Opaque 0) ]})
    as H2 by (vm_compute; reflexivity).
  assert (own_props h_basic VUndef !! "handlers" = None) as H3
    by (vm_compute; reflexivity).
  split; [exact H1|]. split; [exact H2|]. split; [exact H3|].
  destruct (handlers_identity ACTION_KEY_MAP VUndef BasicBox h_basic caller
              target [ParentRender ∅] _ _ H1 H2 H3)
    as (w & tree & Hw & Ht & _ & Hh & _).
  exists w, tree. split; [exact Hw|]. split; [exact Ht|exact Hh].
Defined.




(** C6, as stated, fails in its second half: the target has no
    [hotKeyHandlers], the state captures [undefined], and with
    [componentProps = {handlers: {other: g}}] the dispatch unit gets the
    object at location 5, not [undefined]. *)
Lemma missing_handlers_overridden :
  ∃ w tree,
    lifetime (HotKeysWrapper ACTION_KEY_MAP options BasicBox) caller
      (Some target) [] (boot (with_override h_missing)) = Ok (tt, w)
    ∧ w_tree w = Some tree
    ∧ with_override h_missing !! 1%positive = Some {[ "title" := VStr "box" ]}
    ∧ state (w_this w) !! "handlers" = Some VUndef
    ∧ el_props tree !! "handlers" = Some (VObj 5%positive).
Proof.
  rewrite lifetime_spec by reflexivity.
  eexists _, _. split; [reflexivity|]. split; [reflexivity|].
  split; [vm_compute; reflexivity|]. split; vm_compute; reflexivity.
Qed.

(** C6, amended: when the target instance has no [hotKeyHandlers]
    property, mounting raises nothing and the state captures [undefined]
    (the [handlers] key is there, its value is [undefined], not an empty
    object); the dispatch unit gets that [undefined] as its [handlers],
    unless [componentProps] has a [handlers] property of its own, which it
    then gets instead. *)
Theorem missing_handlers_undefined keyMap componentProps Component
    h config ss (lt : loc) (o : obj) :
  h !! lt = Some o →
  o !! "hotKeyHandlers" = None →
  let cls := HotKeysWrapper keyMap componentProps Component in
  ∃ w tree,
    lifetime cls config (Some (VObj lt)) ss (boot h) = Ok (tt, w)
    ∧ state (w_this w) = {[ "handlers" := VUndef ]}
    ∧ w_tree w = Some tree
    ∧ el_props tree !! "handlers" =
        match own_props h componentProps !! "handlers" with
        | Some v => Some v
        | None => Some VUndef
        end.
Proof.
  intros Ho Hk cls.
  assert (captured h (VObj lt) = VUndef) as Hcap.
  { unfold captured, field. cbn [own_props]. rewrite Ho. simpl.
    by rewrite Hk. }
  eexists _, _. split; [by apply lifetime_spec|].
  cbn [settled w_tree w_this state]. unfold activated_state. rewrite Hcap.
  split; [reflexivity|]. split; [reflexivity|].
  by rewrite view_handlers, own_props_alloc.
Qed.

Lemma missing_handlers_undefined_witness :
  h_missing !! 1%positive = Some {[ "title" := VStr "box" ]}
  ∧ ({[ "title" := VStr "box" ]} : obj) !! "hotKeyHandlers" = None
  ∧ ∃ w tree,
      lifetime (HotKeysWrapper ACTION_KEY_MAP VUndef BasicBox) caller
        (Some (VObj 1%positive)) [] (boot h_missing) = Ok (tt, w)
      ∧ state (w_this w) = {[ "handlers" := VUndef ]}
      ∧ w_tree w = Some tree
      ∧ el_props tree !! "handlers" = Some VUndef.
Proof.
  assert (h_missing !! 1%positive = Some ({[ "title" := VStr "box" ]} : obj))
    as H1 by (vm_compute; reflexivity).
  assert (({[ "title" := VStr "box" ]} : obj) !! "hotKeyHandlers" = None)
    as H2 by (vm_compute; reflexivity).
  split; [exact H1|]. split; [exact H2|].
  exact (missing_handlers_undefined ACTION_KEY_MAP VUndef BasicBox h_missing
           caller [] _ _ H1 H2).
Defined.

(** ** The handle to the target *)




(** * More of the behaviour *)

(** ** Renders by the parent *)

Lemma outcome_snoc config ss config' :
  (outcome config ss).1 = Mounted →
  outcome config (ss ++ [ParentRender config']) = (Mounted, config').
Proof.
  revert config. induction ss as [|[c|] ss IH]; intros config Hm.
  - reflexivity.
  - cbn [app outcome] in *. by apply IH.
  - discriminate.
Qed.

Lemma run_trace_snoc config ss config' :
  (outcome config ss).1 = Mounted →
  run_trace config (ss ++ [ParentRender config'])
  = run_trace config ss
    ++ react_trace (outcome config ss).2 (ParentRender config').
Proof.
  revert config. induction ss as [|[c|] ss IH]; intros config Hm.
  - cbn [app run_trace outcome snd]. by rewrite app_nil_r.
  - cbn [app run_trace outcome] in *. rewrite IH by done.
    by rewrite app_assoc.
  - discriminate.
Qed.

(** X1: [HotKeysWrapper] extends [PureComponent] and defines no
    [shouldComponentUpdate]: when the parent renders a mounted instance
    with props shallowly equal to the ones it has, the wrapper does not
    render (the trace does not grow); with other props it renders once.
    Either way the new props are taken, and the state, the heap and
    [this._ref] are as before. *)
Theorem parent_render_pure keyMap componentProps Component
    h config node ss config' :
  nullish node = false →
  (outcome config ss).1 = Mounted →
  let cls := HotKeysWrapper keyMap componentProps Component in
  ∃ w w',
    lifetime cls config (Some node) ss (boot h) = Ok (tt, w)
    ∧ lifetime cls config (Some node) (ss ++ [ParentRender config']) (boot h)
      = Ok (tt, w')
    ∧ w_trace w' =
        w_trace w ++ (if decide (props (w_this w) = props_of_config config')
                      then [] else [EHook Hrender])
    ∧ props (w_this w') = props_of_config config'
    ∧ state (w_this w') = state (w_this w)
    ∧ w_heap w' = w_heap w
    ∧ _ref (w_this w') = _ref (w_this w).
Proof.
  intros Hn Hm cls. eexists _, _.
  split; [by apply lifetime_spec|]. split; [by apply lifetime_spec|].
  rewrite outcome_snoc, run_trace_snoc by done. rewrite Hm.
  cbn [settled w_trace w_this props state w_heap _ref fst snd react_trace].
  split; [by rewrite app_assoc|]. done.
Qed.

Lemma parent_render_pure_witness :
  nullish target = false
  ∧ (outcome caller [ParentRender ∅]).1 = Mounted
  ∧ ∃ w w',
      lifetime (HotKeysWrapper ACTION_KEY_MAP VUndef BasicBox) caller
        (Some target) [ParentRender ∅] (boot h_basic) = Ok (tt, w)
      ∧ lifetime (HotKeysWrapper ACTION_KEY_MAP VUndef BasicBox) caller
          (Some target) ([ParentRender ∅] ++ [ParentRender caller])
          (boot h_basic)
        = Ok (tt, w')
      ∧ w_trace w' =
          w_trace w ++ (if decide (props (w_this w) = props_of_config caller)
                        then [] else [EHook Hrender])
      ∧ props (w_this w') = props_of_config caller.
Proof.
  split; [reflexivity|]. split; [reflexivity|].
  destruct (parent_render_pure ACTION_KEY_MAP VUndef BasicBox h_basic caller
              target [ParentRender ∅] caller eq_refl eq_refl)
    as (w & w' & Hw & Hw' & Ht & Hp & _).
  exists w, w'. split; [exact Hw|]. split; [exact Hw'|].
  split; [exact Ht|exact Hp].
Defined.

(** ** The calls of the ref *)

Lemma filter_ref_call_run_trace config ss :
  List.filter is_ref_call (run_trace config ss) =
    match (outcome config ss).1 with
    | TornDown => [ERefCall "_setRef" VNull]
    | _ => []
    end.
Proof.
  revert config. induction ss as [|[c|] ss IH]; intros config.
  - reflexivity.
  - cbn [run_trace outcome react_trace]. rewrite List.filter_app, IH.
    by case_decide.
  - reflexivity.
Qed.

(** X2: the ref handed to the target is the method bound once in the
    constructor, the same value on every render, so the host attaches it
    once: over the life of an instance [_setRef] is called with the target
    once, at mount, never again on a later render, and once with [null] at
    teardown. *)
Theorem ref_attached_once keyMap componentProps Component h config node ss :
  nullish node = false →
  let cls := HotKeysWrapper keyMap componentProps Component in
  ∃ w,
    lifetime cls config (Some node) ss (boot h) = Ok (tt, w)
    ∧ List.filter is_ref_call (w_trace w) =
        ERefCall "_setRef" node ::
        match (outcome config ss).1 with
        | TornDown => [ERefCall "_setRef" VNull]
        | _ => []
        end.
Proof.
  intros Hn cls. eexists. split; [by apply lifetime_spec|].
  cbn [settled w_trace].
  rewrite List.filter_app, filter_mount_trace by reflexivity.
  by rewrite filter_ref_call_run_trace.
Qed.

Lemma ref_attached_once_witness :
  nullish target = false
  ∧ ∃ w,
      lifetime (HotKeysWrapper ACTION_KEY_MAP VUndef BasicBox) caller
        (Some target) [ParentRender ∅; ParentRender caller; Teardown]
        (boot h_basic) = Ok (tt, w)
      ∧ List.filter is_ref_call (w_trace w) =
          [ERefCall "_setRef" target; ERefCall "_setRef" VNull].
Proof.
  split; [reflexivity|].
  exact (ref_attached_once ACTION_KEY_MAP VUndef BasicBox h_basic caller
           target [ParentRender ∅; ParentRender caller; Teardown] eq_refl).
Defined.

(** ** Before activation *)

(** X3: the first render comes before the handler map is read.  Unless
    [componentProps] has a [handlers] property of its own, the dispatch
    unit is first given the object the constructor has just allocated: an
    object that was not in the heap before and has no properties.  Nothing
    ever puts a property on it: the map captured later replaces the
    reference in the state, it is not copied into this object. *)
Theorem first_render_empty_handlers keyMap componentProps Component
    h config :
  own_props h componentProps !! "handlers" = None →
  let cls := HotKeysWrapper keyMap componentProps Component in
  ∃ tree w l,
    first_render cls config (boot h) = Ok (tree, w)
    ∧ el_props tree !! "handlers" = Some (VObj l)
    ∧ (l ∉ dom h)
    ∧ w_heap w !! l = Some ∅
    ∧ w_queue w = []
    ∧ (∀ node ss,
         nullish node = false →
         ∃ w', lifetime cls config (Some node) ss (boot h) = Ok (tt, w')
               ∧ w_heap w' !! l = Some ∅).
Proof.
  intros Hnone cls. eexists _, _, (fresh (dom h)). split.
  { unfold first_render. mstep.
    erewrite bind_Ok by apply constructor_eq. mstep. apply render_view. }
  cbn [w_heap w_queue]. split.
  { unfold initial_state.
    rewrite view_handlers, own_props_alloc. by rewrite Hnone. }
  split; [apply is_fresh|]. split; [apply lookup_insert_eq|].
  split; [reflexivity|].
  intros node ss Hn. eexists. split; [by apply lifetime_spec|].
  apply lookup_insert_eq.
Qed.

Lemma first_render_empty_handlers_witness :
  own_props h_basic VUndef !! "handlers" = None
  ∧ ∃ tree w l,
      first_render (HotKeysWrapper ACTION_KEY_MAP VUndef BasicBox) caller
        (boot h_basic) = Ok (tree, w)
      ∧ el_props tree !! "handlers" = Some (VObj l)
      ∧ (l ∉ dom h_basic)
      ∧ w_heap w !! l = Some ∅.
Proof.
  assert (own_props h_basic VUndef !! "handlers" = None) as H1
    by (vm_compute; reflexivity).
  split; [exact H1|].
  destruct (first_render_empty_handlers ACTION_KEY_MAP VUndef BasicBox
              h_basic caller H1)
    as (tree & w & l & Hf & Hh & Hl & Hw & _).
  exists tree, w, l. split; [exact Hf|]. split; [exact Hh|].
  split; [exact Hl|exact Hw].
Defined.

(** ** The shape of the rendered tree *)

Lemma special_dispatch_props keyMap handlers (extra : obj) k :
  k ∈ ["key"; "ref"] →
  special (dispatch_props keyMap handlers extra) k = special extra k.
Proof.
  intros Hk. unfold special. rewrite dispatch_props_lookup.
  destruct (extra !! k); [reflexivity|].
  assert (internal keyMap handlers k = None) as ->; [|reflexivity].
  apply elem_of_cons in Hk as [->|Hk]; [reflexivity|].
  apply elem_of_cons in Hk as [->|Hk]; [reflexivity|].
  by apply elem_of_nil in Hk.
Qed.

(** X4: whatever [componentProps] holds, [render] returns the dispatch
    unit with one child, the target component, which has no child written
    into it.  A [children] entry of [componentProps] does not reach the
    dispatch unit, whose child is the target; a [key] or [ref] entry of
    [componentProps] becomes the key or the ref of the dispatch element
    and is not among its props. *)
Theorem dispatch_tree_shape keyMap componentProps Component (w : world) :
  let extra := own_props (w_heap w) componentProps in
  ∃ tree target,
    render keyMap componentProps Component w = Ok (tree, w)
    ∧ el_type tree = HotKeys
    ∧ el_children tree = [target]
    ∧ el_type target = Component
    ∧ el_children target = []
    ∧ el_props tree !! "children" = None
    ∧ (∀ k, k ∈ RESERVED_PROPS → el_props tree !! k = None)
    ∧ el_key tree = special extra "key"
    ∧ el_ref tree = special extra "ref".
Proof.
  intros extra. eexists _, _. split; [apply render_eq|].
  cbn [createElement el_type el_children el_props el_key el_ref].
  split; [reflexivity|]. split; [reflexivity|]. split; [reflexivity|].
  split; [reflexivity|]. split; [apply lookup_delete_eq|].
  split.
  - intros k Hk. rewrite lookup_delete_ne.
    + by apply props_of_config_reserved.
    + intros <-. revert Hk. by apply (bool_decide_unpack _).
  - split; apply special_dispatch_props; set_solver.
Qed.

(** The same on a concrete heap, with
    [componentProps = {children: "x", ref: r}]. *)
Example dispatch_tree_children :
  let w := boot (with_children h_basic) in
  ∃ tree,
    render ACTION_KEY_MAP options BasicBox w = Ok (tree, w)
    ∧ el_props tree !! "children" = None
    ∧ el_ref tree = VFun (Opaque 9)
    ∧ (el_type <$> el_children tree) = [BasicBox].
Proof.
  eexists. split; [apply render_eq|].
  split; [vm_compute; reflexivity|]. split; vm_compute; reflexivity.
Qed.

(** ** What is captured, and when *)

(** X5: [componentDidMount] stores whatever [hotKeyHandlers] is, with no
    check of its type: for every target instance the state captures the
    value read (a map, [null], a number, [undefined] when the property is
    absent), and the dispatch unit gets that value as [handlers], or the
    [handlers] of [componentProps] when it has one. *)
Theorem handlers_forwarded_unchecked keyMap componentProps Component
    h config node ss :
  nullish node = false →
  let cls := HotKeysWrapper keyMap componentProps Component in
  ∃ w tree,
    lifetime cls config (Some node) ss (boot h) = Ok (tt, w)
    ∧ w_tree w = Some tree
    ∧ state (w_this w) = {[ "handlers" := field h node "hotKeyHandlers" ]}
    ∧ el_props tree !! "handlers" =
        Some (default (field h node "hotKeyHandlers")
                (own_props h componentProps !! "handlers")).
Proof.
  intros Hn cls. eexists _, _. split; [by apply lifetime_spec|].
  cbn [settled w_tree w_this state]. split; [reflexivity|].
  split; [reflexivity|].
  unfold activated_state, captured.
  rewrite view_handlers, own_props_alloc.
  by destruct (own_props h componentProps !! "handlers").
Qed.

Lemma handlers_forwarded_unchecked_witness :
  nullish target = false
  ∧ ∃ w tree,
      lifetime (HotKeysWrapper ACTION_KEY_MAP VUndef BasicBox) caller
        (Some target) [] (boot h_number) = Ok (tt, w)
      ∧ w_tree w = Some tree
      ∧ el_props tree !! "handlers" = Some (VNum 7).
Proof.
  split; [reflexivity|].
  destruct (handlers_forwarded_unchecked ACTION_KEY_MAP VUndef BasicBox
              h_number caller target [] eq_refl)
    as (w & tree & Hw & Ht & _ & Hh).
  exists w, tree. split; [exact Hw|]. split; [exact Ht|].
  rewrite Hh. vm_compute. reflexivity.
Defined.

Section Assignments.

Variables (keyMap componentProps : val) (Component : component).
Abbreviation cls := (HotKeysWrapper keyMap componentProps Component).
Abbreviation view' := (view keyMap componentProps Component).

(** An assignment to an object that is not [componentProps] leaves what
    [componentProps] spreads. *)
Lemma own_props_assign h (l : loc) (o : obj) v :
  v ≠ VObj l → own_props (<[l := o]> h) v = own_props h v.
Proof.
  intros Hv. destruct v as [| | | | | |l']; try reflexivity.
  cbn [own_props]. rewrite lookup_insert_ne; [done|]. congruence.
Qed.

Lemma field_assign h (l : loc) k v :
  field (<[l := <[k := v]> (default ∅ (h !! l))]> h) (VObj l) k = v.
Proof.
  unfold field. cbn [own_props].
  rewrite lookup_insert_eq. cbn [from_option id].
  by rewrite lookup_insert_eq.
Qed.

(** A render by the parent with other props, whatever the heap has become
    and whatever tree was committed before. *)
Lemma update_rerenders h st node config tr config' h0 st0 config0 :
  props_of_config config ≠ props_of_config config' →
  update cls config'
    (World h (Instance (props_of_config config) st node the_setRef) [] tr
       Mounted (Some (view' h0 st0 (props_of_config config0))) (Some node))
  = Ok (tt, World h (Instance (props_of_config config') st node the_setRef)
              [] (tr ++ [EHook Hrender]) Mounted
              (Some (view' h st (props_of_config config'))) (Some node)).
Proof.
  intros Hne. unfold update. repeat mstep.
  unfold should_update. cbn [extends_PureComponent HotKeysWrapper andb].
  rewrite shallowEqual_false by done. cbn [andb negb].
  erewrite bind_Ok by apply rerender_eq.
  apply flush_empty.
Qed.

End Assignments.

(** X6: the handler map is read once, at mount, and never again.  When the
    target later assigns another value to its [hotKeyHandlers] and the
    parent then renders the wrapper with other props, the wrapper renders
    again but still gives the dispatch unit the value read at mount, not
    the target's current one; no second read of the target is made. *)
Theorem capture_is_not_refreshed keyMap componentProps Component
    h config (lt : loc) ss (v' : val) config' :
  (outcome config ss).1 = Mounted →
  props_of_config (outcome config ss).2 ≠ props_of_config config' →
  componentProps ≠ VObj lt →
  own_props h componentProps !! "handlers" = None →
  let cls := HotKeysWrapper keyMap componentProps Component in
  ∃ w tree,
    (lifetime cls config (Some (VObj lt)) ss ;;
     assign lt "hotKeyHandlers" v' ;;
     react cls (ParentRender config')) (boot h) = Ok (tt, w)
    ∧ w_trace w =
        (mount_trace h (VObj lt) ++ run_trace config ss) ++ [EHook Hrender]
    ∧ field (w_heap w) (VObj lt) "hotKeyHandlers" = v'
    ∧ w_tree w = Some tree
    ∧ el_props tree !! "handlers" = Some (captured h (VObj lt))
    ∧ List.filter is_get (w_trace w) = [EGet (VObj lt) "hotKeyHandlers"].
Proof.
  intros Hm Hne Hcp Hnone cls.
  destruct (outcome config ss) as [ph c] eqn:Ho. cbn [fst snd] in *.
  subst ph. eexists _, _. split.
  { erewrite bind_Ok by (by apply lifetime_spec). rewrite Ho.
    unfold assign, settled. mstep. cbn [fst snd].
    unfold react. mstep. by apply update_rerenders. }
  cbn [w_trace w_heap w_tree]. split; [reflexivity|].
  split; [apply field_assign|]. split; [reflexivity|]. split.
  - unfold activated_state.
    rewrite view_handlers, own_props_assign, own_props_alloc by done.
    by rewrite Hnone.
  - rewrite !List.filter_app, filter_mount_trace by reflexivity.
    rewrite (filter_passive _ _ eq_refl eq_refl (run_trace_passive config ss)).
    reflexivity.
Qed.

Lemma capture_is_not_refreshed_witness :
  (outcome caller []).1 = Mounted
  ∧ props_of_config (outcome caller []).2 ≠ props_of_config ∅
  ∧ VUndef ≠ VObj 1%positive
  ∧ own_props h_basic VUndef !! "handlers" = None
  ∧ ∃ w tree,
      (lifetime (HotKeysWrapper ACTION_KEY_MAP VUndef BasicBox) caller
         (Some (VObj 1%positive)) [] ;;
       assign 1%positive "hotKeyHandlers" VNull ;;
       react (HotKeysWrapper ACTION_KEY_MAP VUndef BasicBox)
         (ParentRender ∅)) (boot h_basic) = Ok (tt, w)
      ∧ field (w_heap w) (VObj 1%positive) "hotKeyHandlers" = VNull
      ∧ w_tree w = Some tree
      ∧ el_props tree !! "handlers" = Some (VObj 2%positive).
Proof.
  assert (props_of_config (outcome caller []).2 ≠ props_of_config ∅) as H2.
  { apply (bool_decide_unpack _). vm_compute. exact I. }
  assert (own_props h_basic VUndef !! "handlers" = None) as H4
    by (vm_compute; reflexivity).
  split; [reflexivity|]. split; [exact H2|]. split; [discriminate|].
  split; [exact H4|].
  destruct (capture_is_not_refreshed ACTION_KEY_MAP VUndef BasicBox h_basic
              caller 1%positive [] VNull ∅ eq_refl H2
              (ltac:(discriminate)) H4)
    as (w & tree & Hw & _ & Hf & Ht & Hh & _).
  exists w, tree. split; [exact Hw|]. split; [exact Hf|].
  split; [exact Ht|]. rewrite Hh. vm_compute. reflexivity.
Defined.

(** X7: the captured map is the target's own object, so the dispatch unit
    and the target share it: a property the target sets on its handler map
    after mount is a property of the object the dispatch unit holds as
    [handlers], without any render of the wrapper. *)
Theorem handler_map_shared keyMap componentProps Component
    h config node ss (lh : loc) (o : obj) k (v : val) :
  captured h node = VObj lh →
  h !! lh = Some o →
  own_props h componentProps !! "handlers" = None →
  let cls := HotKeysWrapper keyMap componentProps Component in
  ∃ w tree,
    (lifetime cls config (Some node) ss ;; assign lh k v) (boot h)
      = Ok (tt, w)
    ∧ w_trace w = mount_trace h node ++ run_trace config ss
    ∧ w_tree w = Some tree
    ∧ el_props tree !! "handlers" = Some (VObj lh)
    ∧ w_heap w !! lh = Some (<[k := v]> o)
    ∧ field (w_heap w) (VObj lh) k = v.
Proof.
  intros Hcap Ho Hnone cls.
  assert (<[fresh (dom h) := ∅]> h !! lh = Some o) as Hlh.
  { rewrite lookup_alloc_old; [done|]. apply elem_of_dom. by exists o. }
  eexists _, _. split.
  { erewrite bind_Ok by (apply lifetime_spec; by eapply captured_object).
    reflexivity. }
  cbn [settled with_heap w_trace w_tree w_heap]. split; [reflexivity|].
  split; [reflexivity|]. split; [|split].
  - unfold activated_state. rewrite Hcap.
    rewrite view_handlers, own_props_alloc. by rewrite Hnone.
  - rewrite lookup_insert_eq, Hlh. reflexivity.
  - apply field_assign.
Qed.

Lemma handler_map_shared_witness :
  captured h_basic target = VObj 2%positive
  ∧ h_basic !! 2%positive = Some {[ "logConsole" := VFun (Opaque 0) ]}
  ∧ own_props h_basic VUndef !! "handlers" = None
  ∧ ∃ w tree,
      (lifetime (HotKeysWrapper ACTION_KEY_MAP VUndef BasicBox) caller
         (Some target) [] ;;
       assign 2%positive "save" (VFun (Opaque 3))) (boot h_basic)
        = Ok (tt, w)
      ∧ w_tree w = Some tree
      ∧ el_props tree !! "handlers" = Some (VObj 2%positive)
      ∧ field (w_heap w) (VObj 2%positive) "save" = VFun (Opaque 3).
Proof.
  assert (captured h_basic target = VObj 2%positive) as H1
    by (vm_compute; reflexivity).
  assert (h_basic !! 2%positive = Some {[ "logConsole" := VFun (Opaque 0) ]})
    as H2 by (vm_compute; reflexivity).
  assert (own_props h_basic VUndef !! "handlers" = None) as H3
    by (vm_compute; reflexivity).
  split; [exact H1|]. split; [exact H2|]. split; [exact H3|].
  destruct (handler_map_shared ACTION_KEY_MAP VUndef BasicBox h_basic caller
              target [] _ _ "save" (VFun (Opaque 3)) H1 H2 H3)
    as (w & tree & Hw & _ & Ht & Hh & _ & Hf).
  exists w, tree. split; [exact Hw|]. split; [exact Ht|].
  split; [exact Hh|exact Hf].
Defined.

(** X8: [componentProps] is held by reference and spread on every render,
    not copied when the class is made: a property assigned on the
    [componentProps] object after mount is among the props of the dispatch
    unit at the next render of the wrapper. *)
Theorem componentProps_read_each_render keyMap Component
    h config node (lc : loc) ss k (v : val) config' :
  nullish node = false →
  (outcome config ss).1 = Mounted →
  props_of_config (outcome config ss).2 ≠ props_of_config config' →
  k ∉ RESERVED_PROPS → k ≠ "children" →
  let cls := HotKeysWrapper keyMap (VObj lc) Component in
  ∃ w tree,
    (lifetime cls config (Some node) ss ;;
     assign lc k v ;;
     react cls (ParentRender config')) (boot h) = Ok (tt, w)
    ∧ w_tree w = Some tree
    ∧ el_props tree !! k = Some v.
Proof.
  intros Hn Hm Hne Hk Hc cls.
  destruct (outcome config ss) as [ph c] eqn:Ho. cbn [fst snd] in *.
  subst ph. eexists _, _. split.
  { erewrite bind_Ok by (by apply lifetime_spec). rewrite Ho.
    unfold assign, settled. mstep. cbn [fst snd].
    unfold react. mstep. by apply update_rerenders. }
  cbn [w_tree]. split; [reflexivity|].
  unfold view. rewrite createElement_props_lookup by done.
  rewrite dispatch_props_lookup. cbn [own_props].
  rewrite lookup_insert_eq. cbn [from_option id].
  by rewrite lookup_insert_eq.
Qed.

Lemma componentProps_read_each_render_witness :
  nullish target = false
  ∧ (outcome caller []).1 = Mounted
  ∧ props_of_config (outcome caller []).2 ≠ props_of_config ∅
  ∧ ("focused" ∉ RESERVED_PROPS)
  ∧ "focused" ≠ "children"
  ∧ ∃ w tree,
      (lifetime (HotKeysWrapper ACTION_KEY_MAP options BasicBox) caller
         (Some target) [] ;;
       assign 4%positive "focused" (VBool true) ;;
       react (HotKeysWrapper ACTION_KEY_MAP options BasicBox)
         (ParentRender ∅)) (boot (with_span h_basic)) = Ok (tt, w)
      ∧ w_tree w = Some tree
      ∧ el_props tree !! "focused" = Some (VBool true).
Proof.
  assert (props_of_config (outcome caller []).2 ≠ props_of_config ∅) as H3.
  { apply (bool_decide_unpack _). vm_compute. exact I. }
  assert ("focused" ∉ RESERVED_PROPS) as H4
    by (apply (bool_decide_unpack _); vm_compute; exact I).
  assert ("focused" ≠ "children") as H5 by discriminate.
  split; [reflexivity|]. split; [reflexivity|]. split; [exact H3|].
  split; [exact H4|]. split; [exact H5|].
  exact (componentProps_read_each_render ACTION_KEY_MAP BasicBox
           (with_span h_basic) caller target 4%positive [] "focused"
           (VBool true) ∅ eq_refl eq_refl H3 H4 H5).
Defined.
